(** * stretch_body_rhc: gamepad input and arm joint driver

    A shallow embedding of
      - body/stretch_body/xbox_controller.py  (Joystick, Stick, Button,
        Trigger, XboxController),
      - body/stretch_body/gamepad_controller.py (GamePadController),
      - body/stretch_body/arm.py (Arm),
    followed by the properties of the specification that concern them.

    Conventions.  Python [int] is [Z]; Python [float] is the kernel's
    binary64 [float] (same rounding as CPython's C doubles); [bytes] and
    [str] are [list ascii]; a [dict] with string keys is a [gmap string _];
    an instance whose attributes are not fixed by a class of the module is
    its attribute dictionary.  Exceptions are values of [exn]; a method
    that mutates [self] or talks to the operating system is a function in
    the state-and-exception monad [py], whose state survives a raise, as
    Python's does. *)

From Stdlib Require Import ZArith Floats Reals Lra Ascii String.
From stdpp Require Import functions gmap strings list.

Set Warnings "-register-all,-inexact-float".
#[local] Open Scope Z_scope.

(** ** Python values, exceptions and control *)

Inductive pyval :=
  | VNone
  | VBool (b : bool)
  | VInt (z : Z)
  | VFloat (f : float)
  | VStr (s : string)
  | VObj (d : gmap string pyval).

(** The exception classes the three modules can meet.  [IOError] is
    Python 3's [OSError]; the others are not subclasses of it. *)
Inductive exn :=
  | IOError (msg : string)
  | NameError (name : string)
  | AttributeError (attr : string)
  | KeyError (key : string)
  | ValueError
  | ZeroDivisionError
  | OverflowError.

(** How a call ends: it returns, it raises, or (in this model only) a loop
    that waits on the clock used up the iterations it was given. *)
Inductive outcome (A : Type) :=
  | Return (a : A)
  | Raise (e : exn)
  | OutOfFuel.
Arguments Return {A} a.
Arguments Raise {A} e.
Arguments OutOfFuel {A}.

#[global] Instance outcome_ret : MRet outcome := @Return.
#[global] Instance outcome_bind : MBind outcome := λ A B f m,
  match m with
  | Return a => f a
  | Raise e => Raise e
  | OutOfFuel => OutOfFuel
  end.

(** Statements that run against a mutable state [S]. *)
Definition py (S A : Type) : Type := S → outcome A * S.

#[global] Instance py_ret {S} : MRet (py S) := λ A a s, (Return a, s).
#[global] Instance py_bind {S} : MBind (py S) := λ A B f m s,
  match m s with
  | (Return a, s') => f a s'
  | (Raise e, s') => (Raise e, s')
  | (OutOfFuel, s') => (OutOfFuel, s')
  end.

Definition raise {S A} (e : exn) : py S A := λ s, (Raise e, s).
Definition get {S} : py S S := λ s, (Return s, s).
Definition modify {S} (f : S → S) : py S unit := λ s, (Return tt, f s).
Definition lift {S A} (o : outcome A) : py S A := λ s, (o, s).

(** [try: body  except IOError as inst: handler inst]. *)
Definition try_except_IOError {S A} (body : py S A) (handler : string → py S A)
  : py S A := λ s,
  match body s with
  | (Raise (IOError msg), s') => handler msg s'
  | r => r
  end.

(** [with self.lock: body].  One thread runs at a time in this model: the
    mutex is free on entry and released on exit, also when [body] raises. *)
Definition with_lock {S A} (body : py S A) : py S A := body.

(** ** Numbers *)

(** [float(z)]: the nearest binary64, ties to even; infinite when [z] is
    beyond the range of a double. *)
Definition Z2float (z : Z) : float :=
  SF2Prim (SpecFloat.binary_normalize prec emax z 0 false).

(** The conversion Python applies to an [int] operand of a float
    operation: OverflowError ("int too large to convert to float"). *)
Definition float_of_int (z : Z) : outcome float :=
  let f := Z2float z in
  if PrimFloat.is_infinity f then Raise OverflowError else Return f.

(** [f - z] for a float [f] and an int [z]. *)
Definition float_sub_int (f : float) (z : Z) : outcome float :=
  g ← float_of_int z; mret (f - g)%float.

(** [f / g] for floats: ZeroDivisionError ("float division by zero"). *)
Definition float_truediv (f g : float) : outcome float :=
  if (g =? 0)%float then Raise ZeroDivisionError else Return (f / g)%float.

(** [z / g] for an int [z] and a float [g]: the int is converted first. *)
Definition int_truediv_float (z : Z) (g : float) : outcome float :=
  f ← float_of_int z; float_truediv f g.

(** The truth value Python gives a value in [if] and [not]. *)
Definition truthy (v : pyval) : bool :=
  match v with
  | VNone => false
  | VBool b => b
  | VInt z => negb (z =? 0)
  | VFloat f => negb (f =? 0)%float
  | VStr s => negb (String.eqb s "")
  | VObj _ => true
  end.

(** ** xbox_controller.py: input primitives *)

Module Stick.
Record t := mk { x : pyval; y : pyval; norm : float }.

Definition __init__ : t :=
  {| x := VFloat 0; y := VFloat 0; norm := Z2float (2 ^ 15) |}.

Definition update_x (abs_x : Z) (self : t) : outcome t :=
  v ← int_truediv_float abs_x (norm self);
  mret {| x := VFloat v; y := y self; norm := norm self |}.

Definition update_y (abs_y : Z) (self : t) : outcome t :=
  v ← int_truediv_float (- abs_y) (norm self);
  mret {| x := x self; y := VFloat v; norm := norm self |}.
End Stick.

Module Button.
Record t := mk { pressed : pyval }.

Definition __init__ : t := {| pressed := VBool false |}.

Definition update (state : Z) (self : t) : t :=
  if state =? 0 then {| pressed := VBool false |}
  else if state =? 1 then {| pressed := VBool true |}
  else self.
End Button.

Module Trigger.
Record t := mk { norm : float; pulled : pyval }.

Definition num_bits (xbox_one : bool) : Z := if xbox_one then 10 else 8.

Definition __init__ (xbox_one : bool) : t :=
  {| norm := Z2float (2 ^ num_bits xbox_one - 1); pulled := VFloat 0 |}.

Definition update (state : Z) (self : t) : outcome t :=
  p ← int_truediv_float state (norm self);
  mret {| norm := norm self;
          pulled := VFloat (if (1 <? p)%float then 1%float else p) |}.
End Trigger.

(** ** xbox_controller.py: Joystick.axisScale *)

Definition axisScale (raw deadzone : Z) : outcome float :=
  if Z.abs raw <? deadzone then Return 0%float
  else if raw <? 0 then
    d ← float_sub_int 32768 deadzone; int_truediv_float (raw + deadzone) d
  else
    d ← float_sub_int 32767 deadzone; int_truediv_float (raw - deadzone) d.

(** ** Bytes and text *)

Definition bytes := list ascii.

(** A bytes (or str) literal. *)
Definition b (s : string) : bytes := list_ascii_of_string s.

(** [s[lo:hi]] for [0 <= lo <= hi]: Python clips a slice to the
    sequence, it never raises. *)
Definition slice (lo hi : nat) (s : bytes) : bytes := take (hi - lo) (drop lo s).

(** [bytes.lower()]: ASCII upper-case letters only. *)
Definition ascii_lower (c : ascii) : ascii :=
  let n := nat_of_ascii c in
  if ((65 <=? n) && (n <=? 90))%nat then ascii_of_nat (n + 32) else c.

Definition lower (s : bytes) : bytes := ascii_lower <$> s.

(** The whitespace [int()] strips: space, \t, \n, \v, \f, \r. *)
Definition is_space (c : ascii) : bool :=
  let n := nat_of_ascii c in ((n =? 32) || ((9 <=? n) && (n <=? 13)))%nat.

Definition is_digit (c : ascii) : bool :=
  let n := nat_of_ascii c in ((48 <=? n) && (n <=? 57))%nat.

Definition digit_value (c : ascii) : Z := Z.of_nat (nat_of_ascii c) - 48.

(** Decimal digits, with single underscores allowed between two digits. *)
Fixpoint digits (acc : Z) (after_digit : bool) (s : bytes) : option Z :=
  match s with
  | [] => if after_digit then Some acc else None
  | c :: s' =>
      if is_digit c then digits (10 * acc + digit_value c) true s'
      else if bool_decide (c = "_"%char) && after_digit then digits acc false s'
      else None
  end.

Fixpoint lstrip (s : bytes) : bytes :=
  match s with
  | c :: s' => if is_space c then lstrip s' else s
  | [] => []
  end.

Definition strip (s : bytes) : bytes := reverse (lstrip (reverse (lstrip s))).

(** [int(s)] in base 10: ValueError for anything that is not an optionally
    signed decimal literal surrounded by whitespace. *)
Definition int_ (s : bytes) : outcome Z :=
  let parsed :=
    match strip s with
    | c :: s' =>
        if bool_decide (c = "-"%char) then Z.opp <$> digits 0 false s'
        else if bool_decide (c = "+"%char) then digits 0 false s'
        else digits 0 false (c :: s')
    | [] => None
    end in
  match parsed with Some z => Return z | None => Raise ValueError end.

(** ** The operating system, as the modules see it *)

(** What the next [select] on the driver's stdout finds: nothing to read,
    or a line that [readline] will return.  End of file is a line of
    length zero. *)
Inductive pipe_event :=
  | NotReady
  | Line (data : bytes).

Record World := mkWorld {
  clock : nat → float;            (* the n-th result of time.time() *)
  ticks : nat;                    (* calls of time.time() so far *)
  pipe : list pipe_event;         (* the driver's stdout, in order *)
  procs : list string;            (* names psutil.process_iter() reports *)
  can_spawn : string → bool;      (* whether Popen finds the executable *)
  spawned : list (list string);   (* argument vectors Popen has launched *)
  kills : nat;                    (* proc.kill() calls *)
  printed : list string           (* what print() wrote, oldest first *)
}.

Definition time_time (w : World) : float * World :=
  (clock w (ticks w),
   mkWorld (clock w) (S (ticks w)) (pipe w) (procs w) (can_spawn w)
           (spawned w) (kills w) (printed w)).

Definition set_pipe (p : list pipe_event) (w : World) : World :=
  mkWorld (clock w) (ticks w) p (procs w) (can_spawn w)
          (spawned w) (kills w) (printed w).

(** [select.select([pipe], [], [], 0)]: the readable list is non-empty
    exactly when a line is waiting; an idle poll is used up. *)
Definition select_ (w : World) : bool * World :=
  match pipe w with
  | Line _ :: _ => (true, w)
  | NotReady :: p => (false, set_pipe p w)
  | [] => (false, w)
  end.

(** [pipe.readline()], called only after [select_] reported a line. *)
Definition readline (w : World) : bytes * World :=
  match pipe w with
  | Line l :: p => (l, set_pipe p w)
  | _ => ([], w)
  end.

Definition proc_kill (w : World) : World :=
  mkWorld (clock w) (ticks w) (pipe w) (procs w) (can_spawn w)
          (spawned w) (S (kills w)) (printed w).

Definition print (msg : string) (w : World) : World :=
  mkWorld (clock w) (ticks w) (pipe w) (procs w) (can_spawn w)
          (spawned w) (kills w) (printed w ++ [msg]).

(** [subprocess.Popen(argv)]: FileNotFoundError, an OSError, when the
    executable cannot be launched. *)
Definition Popen (argv : list string) (w : World) : outcome unit * World :=
  if can_spawn w (default "" (head argv)) then
    (Return tt,
     mkWorld (clock w) (ticks w) (pipe w) (procs w) (can_spawn w)
             (spawned w ++ [argv]) (kills w) (printed w))
  else (Raise (IOError "[Errno 2] No such file or directory"), w).

(** A method of an object [O] runs against the object and the world. *)
Definition os {O A} (f : World → A * World) : py (O * World) A :=
  λ '(o, w), let '(a, w') := f w in (Return a, (o, w')).
Definition os_do {O} (f : World → World) : py (O * World) unit :=
  λ '(o, w), (Return tt, (o, f w)).
Definition os_try {O A} (f : World → outcome A * World) : py (O * World) A :=
  λ '(o, w), let '(r, w') := f w in (r, (o, w')).
Definition self {O} : py (O * World) O := λ '(o, w), (Return o, (o, w)).
Definition set_self {O} (f : O → O) : py (O * World) unit :=
  λ '(o, w), (Return tt, (f o, w)).

(** ** xbox_controller.py: Joystick, the driver-process client *)

Module Joystick.
Record t := mk {
  connectStatus : bool;
  reading : bytes;
  refreshTime : float;
  refreshDelay : float
}.

Definition set_connectStatus (c : bool) (j : t) : t :=
  mk c (reading j) (refreshTime j) (refreshDelay j).
Definition set_reading (r : bytes) (j : t) : t :=
  mk (connectStatus j) r (refreshTime j) (refreshDelay j).
Definition set_refreshTime (f : float) (j : t) : t :=
  mk (connectStatus j) (reading j) f (refreshDelay j).

(** [close]: [self.proc.kill()]. *)
Definition close : py (t * World) unit := os_do proc_kill.

(** The detection loop of [__init__],
      [while waitTime > time.time() and not found: ...],
    entered with [found = False]; an iteration that sets [found] ends it
    at the next test, which reads the clock once more.  After the loop,
    [if not found: self.close(); raise IOError(...)]. *)
Fixpoint detect (fuel : nat) (waitTime : float) (j : t) (w : World)
  : outcome t * World :=
  match fuel with
  | O => (OutOfFuel, w)
  | S fuel' =>
      let '(now, w) := time_time w in
      if (now <? waitTime)%float then
        let '(readable, w) := select_ w in
        if readable then
          let '(response, w) := readline w in
          if bool_decide (slice 0 7 response = b "No Xbox") then
            (Raise (IOError "No Xbox controller/receiver found"), w)
          else
            let found :=
              bool_decide (lower (slice 0 12 response) = b "press ctrl-c") in
            if (length response =? 140)%nat then
              (Return (set_reading response (set_connectStatus true j)),
               snd (time_time w))
            else if found then (Return j, snd (time_time w))
            else detect fuel' waitTime j w
        else detect fuel' waitTime j w
      else
        (Raise (IOError
           "Unable to detect Xbox controller/receiver - Run python as sudo"),
         proc_kill w)
  end.

Definition __init__ (fuel : nat) (refreshRate : Z) : py World t :=
  _ ← Popen ["xboxdrv"; "--no-uinput"; "--detach-kernel-driver"];
  delay ← lift (r ← float_of_int refreshRate; float_truediv 1 r);
  now ← ((λ w, (Return (time_time w).1, (time_time w).2)) : py World float);
  detect fuel (now + 2)%float
    {| connectStatus := false; reading := replicate 140 "0"%char;
       refreshTime := 0; refreshDelay := delay |}.

(** The loop of [refresh],
      [while readable: response = self.pipe.readline(); ...;
                       readable = select(...)],
    from the point where [response] has been read and [p] is what the
    pipe still holds. *)
Fixpoint read_lines (response : bytes) (p : list pipe_event)
  : outcome bytes * list pipe_event :=
  if (length response =? 0)%nat then
    (Raise (IOError "Xbox controller disconnected from USB"), p)
  else
    match p with
    | Line response' :: p' => read_lines response' p'
    | NotReady :: p' => (Return response, p')
    | [] => (Return response, [])
    end.

Definition refresh : py (t * World) unit := λ '(j, w),
  let '(now, w) := time_time w in
  if (refreshTime j <? now)%float then
    let '(now, w) := time_time w in
    let j := set_refreshTime (now + refreshDelay j)%float j in
    let '(readable, w) := select_ w in
    if readable then
      let '(response, w) := readline w in
      match read_lines response (pipe w) with
      | (Return response, p) =>
          if (length response =? 140)%nat then
            (Return tt,
             (set_reading response (set_connectStatus true j), set_pipe p w))
          else (Return tt, (set_connectStatus false j, set_pipe p w))
      | (Raise e, p) => (Raise e, (j, set_pipe p w))
      | (OutOfFuel, p) => (OutOfFuel, (j, set_pipe p w))
      end
    else (Return tt, (j, w))
  else (Return tt, (j, w)).

Definition connected : py (t * World) bool :=
  _ ← refresh; j ← self; mret (connectStatus j).

(** [self.refresh(); int(self.reading[lo:hi])]. *)
Definition field (lo hi : nat) : py (t * World) Z :=
  _ ← refresh; j ← self; lift (int_ (slice lo hi (reading j))).

Definition leftX (deadzone : Z) : py (t * World) float :=
  raw ← field 3 9; lift (axisScale raw deadzone).
Definition leftY (deadzone : Z) : py (t * World) float :=
  raw ← field 13 19; lift (axisScale raw deadzone).
Definition rightX (deadzone : Z) : py (t * World) float :=
  raw ← field 24 30; lift (axisScale raw deadzone).
Definition rightY (deadzone : Z) : py (t * World) float :=
  raw ← field 34 40; lift (axisScale raw deadzone).

Definition dpadUp : py (t * World) Z := field 45 46.
Definition dpadDown : py (t * World) Z := field 50 51.
Definition dpadLeft : py (t * World) Z := field 55 56.
Definition dpadRight : py (t * World) Z := field 60 61.
Definition Back : py (t * World) Z := field 68 69.
Definition Guide : py (t * World) Z := field 76 77.
Definition Start : py (t * World) Z := field 84 85.
Definition leftThumbstick : py (t * World) Z := field 90 91.
Definition rightThumbstick : py (t * World) Z := field 95 96.
Definition A : py (t * World) Z := field 100 101.
Definition B : py (t * World) Z := field 104 105.
Definition X : py (t * World) Z := field 108 109.
Definition Y : py (t * World) Z := field 112 113.
Definition leftBumper : py (t * World) Z := field 118 119.
Definition rightBumper : py (t * World) Z := field 123 124.

Definition leftTrigger : py (t * World) float :=
  v ← field 129 132; lift (int_truediv_float v 255).
Definition rightTrigger : py (t * World) float :=
  v ← field 136 139; lift (int_truediv_float v 255).

Definition leftStick (deadzone : Z) : py (t * World) (float * float) :=
  _ ← refresh; x ← leftX deadzone; y ← leftY deadzone; mret (x, y).
Definition rightStick (deadzone : Z) : py (t * World) (float * float) :=
  _ ← refresh; x ← rightX deadzone; y ← rightY deadzone; mret (x, y).

(** The character ranges the accessors slice, in the order of the class. *)
Definition accessor_slices : list (nat * nat) :=
  [(3, 9); (13, 19); (24, 30); (34, 40); (45, 46); (50, 51); (55, 56);
   (60, 61); (68, 69); (76, 77); (84, 85); (90, 91); (95, 96); (100, 101);
   (104, 105); (108, 109); (112, 113); (118, 119); (123, 124); (129, 132);
   (136, 139)]%nat.
End Joystick.

(** ** xbox_controller.py: XboxController, the aggregator *)

(** The names bound at the top level of xbox_controller.py, by its imports
    and its [class] and [def] statements.  No statement binds [xbox]: the
    module docstring quotes the usage of the file the Joystick class came
    from ([import xbox]), but the module itself has no such import. *)
Definition module_globals : list string :=
  ["print_function"; "threading"; "time"; "subprocess"; "psutil"; "select";
   "Joystick"; "Stick"; "Button"; "Trigger"; "XboxController"; "main"].

(** Reading a global name: NameError when nothing binds it. *)
Definition load_global {S} (globals : list string) (name : string)
  : py S unit :=
  if bool_decide (name ∈ globals) then mret tt else raise (NameError name).

Module XboxController.
(** The attributes [__init__] binds, by the class of their value. *)
Inductive stick_attr := left_stick | right_stick.
Inductive button_attr :=
  | left_stick_button | right_stick_button | middle_led_ring_button
  | bottom_button | top_button | left_button | right_button
  | right_shoulder_button | left_shoulder_button
  | select_button | start_button
  | left_pad | right_pad | top_pad | bottom_pad.
Inductive trigger_attr := left_trigger | right_trigger.

#[global] Instance stick_attr_eq_dec : EqDecision stick_attr.
Proof. solve_decision. Defined.
#[global] Instance button_attr_eq_dec : EqDecision button_attr.
Proof. solve_decision. Defined.
#[global] Instance trigger_attr_eq_dec : EqDecision trigger_attr.
Proof. solve_decision. Defined.

Record t := mk {
  sticks : stick_attr → Stick.t;
  buttons : button_attr → Button.t;
  triggers : trigger_attr → Trigger.t;
  joy : option Joystick.t
}.

Definition __init__ : t :=
  {| sticks := λ _, Stick.__init__;
     buttons := λ _, Button.__init__;
     triggers := λ _, Trigger.__init__ false;
     joy := None |}.

(** [self.<stick>.x = v] and the like. *)
Definition set_x (a : stick_attr) (v : pyval) (c : t) : t :=
  let s := sticks c a in
  mk (<[a := Stick.mk v (Stick.y s) (Stick.norm s)]> (sticks c))
     (buttons c) (triggers c) (joy c).
Definition set_y (a : stick_attr) (v : pyval) (c : t) : t :=
  let s := sticks c a in
  mk (<[a := Stick.mk (Stick.x s) v (Stick.norm s)]> (sticks c))
     (buttons c) (triggers c) (joy c).
Definition set_pressed (a : button_attr) (v : pyval) (c : t) : t :=
  mk (sticks c) (<[a := Button.mk v]> (buttons c)) (triggers c) (joy c).
Definition set_pulled (a : trigger_attr) (v : pyval) (c : t) : t :=
  mk (sticks c) (buttons c)
     (<[a := Trigger.mk (Trigger.norm (triggers c a)) v]> (triggers c)) (joy c).
Definition set_joy (j : option Joystick.t) (c : t) : t :=
  mk (sticks c) (buttons c) (triggers c) j.

(** A call [self.joy.m(...)]. *)
Definition on_joy {A} (m : py (Joystick.t * World) A) : py (t * World) A :=
  λ '(c, w),
  match joy c with
  | Some j => let '(r, (j', w')) := m (j, w) in (r, (set_joy (Some j') c, w'))
  | None => (Raise (AttributeError "NoneType"), (c, w))
  end.

(** [if self.joy is not None: self.joy.close(); self.joy = None]. *)
Definition close_joy : py (t * World) unit :=
  c ← self;
  if joy c is Some _ then _ ← on_joy Joystick.close; set_self (set_joy None)
  else mret tt.

Definition assign_float (set : pyval → t → t) (m : py (Joystick.t * World) float)
  : py (t * World) unit :=
  v ← on_joy m; set_self (set (VFloat v)).
Definition assign_int (set : pyval → t → t) (m : py (Joystick.t * World) Z)
  : py (t * World) unit :=
  v ← on_joy m; set_self (set (VInt v)).

Definition start_in (globals : list string) (fuel : nat) : py (t * World) bool :=
  _ ← try_except_IOError
        (names ← os (λ w, (procs w, w));
         _ ← (if bool_decide ("xboxdrv" ∈ names)
              then os_try (Popen ["killall"; "-9"; "xboxdrv"])
              else mret tt);
         _ ← load_global globals "xbox";
         j ← os_try (Joystick.__init__ fuel 30);
         set_self (set_joy (Some j)))
        (λ inst, _ ← os_do (print inst); close_joy);
  mret true.

Definition start : nat → py (t * World) bool := start_in module_globals.

Definition stop : py (t * World) unit := close_joy.

Definition update : py (t * World) unit :=
  try_except_IOError
    (c ← self;
     if joy c is Some _ then
       with_lock
         (_ ← assign_float (set_x left_stick) (Joystick.leftX 0);
          _ ← assign_float (set_y left_stick) (Joystick.leftY 0);
          _ ← assign_float (set_x right_stick) (Joystick.rightX 0);
          _ ← assign_float (set_y right_stick) (Joystick.rightY 0);
          _ ← assign_int (set_pressed left_pad) Joystick.dpadLeft;
          _ ← assign_int (set_pressed right_pad) Joystick.dpadRight;
          _ ← assign_int (set_pressed top_pad) Joystick.dpadUp;
          _ ← assign_int (set_pressed bottom_pad) Joystick.dpadDown;
          _ ← assign_int (set_pressed bottom_button) Joystick.A;
          _ ← assign_int (set_pressed top_button) Joystick.Y;
          _ ← assign_int (set_pressed left_button) Joystick.X;
          _ ← assign_int (set_pressed right_button) Joystick.B;
          _ ← assign_int (set_pressed left_stick_button) Joystick.leftThumbstick;
          _ ← assign_int (set_pressed right_stick_button) Joystick.rightThumbstick;
          _ ← assign_int (set_pressed left_shoulder_button) Joystick.leftBumper;
          _ ← assign_int (set_pressed right_shoulder_button) Joystick.rightBumper;
          _ ← assign_float (set_pulled left_trigger) Joystick.leftTrigger;
          _ ← assign_float (set_pulled right_trigger) Joystick.rightTrigger;
          _ ← assign_int (set_pressed start_button) Joystick.Start;
          _ ← assign_int (set_pressed select_button) Joystick.Back;
          assign_int (set_pressed middle_led_ring_button) Joystick.Guide)
     else mret tt)
    (λ inst, _ ← os_do (print inst); close_joy).

(** The dict display of [get_state]. *)
Definition state_dict (c : t) : gmap string pyval :=
  list_to_map
    [("middle_led_ring_button_pressed",
        Button.pressed (buttons c middle_led_ring_button));
     ("left_stick_x", Stick.x (sticks c left_stick));
     ("left_stick_y", Stick.y (sticks c left_stick));
     ("right_stick_x", Stick.x (sticks c right_stick));
     ("right_stick_y", Stick.y (sticks c right_stick));
     ("left_stick_button_pressed", Button.pressed (buttons c left_stick_button));
     ("right_stick_button_pressed",
        Button.pressed (buttons c right_stick_button));
     ("bottom_button_pressed", Button.pressed (buttons c bottom_button));
     ("top_button_pressed", Button.pressed (buttons c top_button));
     ("left_button_pressed", Button.pressed (buttons c left_button));
     ("right_button_pressed", Button.pressed (buttons c right_button));
     ("left_shoulder_button_pressed",
        Button.pressed (buttons c left_shoulder_button));
     ("right_shoulder_button_pressed",
        Button.pressed (buttons c right_shoulder_button));
     ("select_button_pressed", Button.pressed (buttons c select_button));
     ("start_button_pressed", Button.pressed (buttons c start_button));
     ("left_trigger_pulled", Trigger.pulled (triggers c left_trigger));
     ("right_trigger_pulled", Trigger.pulled (triggers c right_trigger));
     ("bottom_pad_pressed", Button.pressed (buttons c bottom_pad));
     ("top_pad_pressed", Button.pressed (buttons c top_pad));
     ("left_pad_pressed", Button.pressed (buttons c left_pad));
     ("right_pad_pressed", Button.pressed (buttons c right_pad))].

Definition get_state : py (t * World) (gmap string pyval) :=
  _ ← update; c ← self; with_lock (mret (state_dict c)).
End XboxController.

(** ** gamepad_controller.py: GamePadController, the generic poller *)

Module GamePadController.
(** An instance is its attribute dictionary: the module defines no class
    for the values of [self.left_stick], [self.bottom_button], ... *)
Abbreviation t := (gmap string pyval).

(** [self.name]. *)
Definition getattr (name : string) : py t pyval := λ d,
  match d !! name with
  | Some v => (Return v, d)
  | None => (Raise (AttributeError name), d)
  end.

(** [self.name = v]. *)
Definition setattr (name : string) (v : pyval) : py t unit :=
  modify (<[name := v]>).

(** [self.obj.attr]. *)
Definition getattr_of (obj attr : string) : py t pyval :=
  o ← getattr obj;
  match o with
  | VObj d =>
      match d !! attr with
      | Some v => mret v
      | None => raise (AttributeError attr)
      end
  | _ => raise (AttributeError attr)
  end.

(** [self.obj.attr = v]: [self.obj] is read first. *)
Definition setattr_of (obj attr : string) (v : pyval) : py t unit :=
  o ← getattr obj;
  match o with
  | VObj d => setattr obj (VObj (<[attr := v]> d))
  | _ => raise (AttributeError attr)
  end.

(** [with self.lock: body]. *)
Definition with_self_lock {A} (body : py t A) : py t A :=
  _ ← getattr "lock"; with_lock body.

(** [threading.Thread.__init__(self, name=...)]: the thread's own
    attributes, none of which is read below. *)
Definition Thread___init__ (name : string) : py t unit :=
  setattr "_name" (VStr name).

(** The assignments of [set_zero_state], in order. *)
Definition zero_assignments : list (string * string * pyval) :=
  [("middle_led_ring_button", "pressed", VBool false);
   ("left_stick", "x", VInt 0);
   ("left_stick", "y", VInt 0);
   ("right_stick", "x", VInt 0);
   ("right_stick", "y", VInt 0);
   ("left_stick_button", "pressed", VBool false);
   ("right_stick_button", "pressed", VBool false);
   ("bottom_button", "pressed", VBool false);
   ("top_button", "pressed", VBool false);
   ("left_button", "pressed", VBool false);
   ("right_button", "pressed", VBool false);
   ("left_shoulder_button", "pressed", VBool false);
   ("right_shoulder_button", "pressed", VBool false);
   ("select_button", "pressed", VBool false);
   ("start_button", "pressed", VBool false);
   ("bottom_pad", "pressed", VBool false);
   ("top_pad", "pressed", VBool false);
   ("left_pad", "pressed", VBool false);
   ("right_pad", "pressed", VBool false);
   ("left_trigger", "pulled", VInt 0);
   ("right_trigger", "pulled", VInt 0)].

Fixpoint assign_all (l : list (string * string * pyval)) : py t unit :=
  match l with
  | [] => mret tt
  | (obj, attr, v) :: l' => _ ← setattr_of obj attr v; assign_all l'
  end.

Definition set_zero_state : py t unit :=
  with_self_lock (assign_all zero_assignments).

(** The items of the dict display of [get_state], in order: the key, and
    the attribute path [self.obj.attr] of its value. *)
Definition state_items : list (string * (string * string)) :=
  [("middle_led_ring_button_pressed", ("middle_led_ring_button", "pressed"));
   ("left_stick_x", ("left_stick", "x"));
   ("left_stick_y", ("left_stick", "y"));
   ("right_stick_x", ("right_stick", "x"));
   ("right_stick_y", ("right_stick", "y"));
   ("left_stick_button_pressed", ("left_stick_button", "pressed"));
   ("right_stick_button_pressed", ("right_stick_button", "pressed"));
   ("bottom_button_pressed", ("bottom_button", "pressed"));
   ("top_button_pressed", ("top_button", "pressed"));
   ("left_button_pressed", ("left_button", "pressed"));
   ("right_button_pressed", ("right_button", "pressed"));
   ("left_shoulder_button_pressed", ("left_shoulder_button", "pressed"));
   ("right_shoulder_button_pressed", ("right_shoulder_button", "pressed"));
   ("select_button_pressed", ("select_button", "pressed"));
   ("start_button_pressed", ("start_button", "pressed"));
   ("left_trigger_pulled", ("left_trigger", "pulled"));
   ("right_trigger_pulled", ("right_trigger", "pulled"));
   ("bottom_pad_pressed", ("bottom_pad", "pressed"));
   ("top_pad_pressed", ("top_pad", "pressed"));
   ("left_pad_pressed", ("left_pad", "pressed"));
   ("right_pad_pressed", ("right_pad", "pressed"))].

(** A dict display evaluates its items left to right. *)
Fixpoint eval_items (l : list (string * (string * string)))
  : py t (list (string * pyval)) :=
  match l with
  | [] => mret []
  | (key, (obj, attr)) :: l' =>
      v ← getattr_of obj attr; rest ← eval_items l'; mret ((key, v) :: rest)
  end.

Definition get_state : py t (gmap string pyval) :=
  with_self_lock (items ← eval_items state_items; mret (list_to_map items)).

Definition __init__ (print_events print_dongle_status : bool) : py t unit :=
  _ ← Thread___init__ "GamePadController";
  _ ← setattr "print_events" (VBool print_events);
  _ ← setattr "_i" (VInt 0);
  _ ← setattr "print_dongle_status" (VBool print_dongle_status);
  _ ← setattr "ros_logger" VNone;
  _ ← setattr "lock" (VObj ∅);
  _ ← setattr "daemon" (VBool true);
  _ ← setattr "stop_thread" (VBool false);
  _ ← setattr "shutdown_flag" (VObj {["_flag" := VBool false]});
  _ ← set_zero_state;
  state ← get_state;
  setattr "gamepad_state" (VObj state).

(** [GamePadController(print_events, print_dongle_status)]: a new, empty
    instance is handed to [__init__]; the caller gets it only if
    [__init__] returns. *)
Definition new (print_events print_dongle_status : bool) : outcome t :=
  match __init__ print_events print_dongle_status ∅ with
  | (Return _, d) => Return d
  | (Raise e, _) => Raise e
  | (OutOfFuel, _) => OutOfFuel
  end.

Definition stop : py t unit :=
  stopped ← getattr "stop_thread";
  if truthy stopped then mret tt
  else with_self_lock (setattr "stop_thread" (VBool true)).

(** [update]: [while not self.stop_thread:
                 self.gamepad_state = self.get_state()]. *)
Fixpoint update (fuel : nat) : py t unit :=
  match fuel with
  | O => λ g, (OutOfFuel, g)
  | S fuel' =>
      stopped ← getattr "stop_thread";
      if truthy stopped then mret tt
      else state ← get_state;
           _ ← setattr "gamepad_state" (VObj state);
           update fuel'
  end.

(** [self.shutdown_flag.is_set()]: the flag of the Event. *)
Definition is_set : py t bool :=
  flag ← getattr_of "shutdown_flag" "_flag"; mret (truthy flag).

(** [run], the body of the thread:
      [while not self.shutdown_flag.is_set():
           if not self.shutdown_flag.is_set(): self.update()]. *)
Fixpoint run (fuel : nat) : py t unit :=
  match fuel with
  | O => λ g, (OutOfFuel, g)
  | S fuel' =>
      ended ← is_set;
      if ended : bool then mret tt
      else ended' ← is_set;
           _ ← (if ended' : bool then mret tt else update fuel');
           run fuel'
  end.
End GamePadController.

(** ** arm.py: Arm, the arm joint driver *)

(** The arithmetic of arm.py dispatches on its operands: [*], [/] and the
    constants [math.pi] and [2] as a number type provides them. *)
Class Number (T : Type) := {
  mul : T → T → T;
  truediv : T → T → outcome T;
  math_pi : T;
  of_Z : Z → T
}.

(** Python floats: what the module computes with. *)
#[global] Instance float_Number : Number float := {|
  mul := PrimFloat.mul;
  truediv := float_truediv;
  math_pi := 0x1.921fb54442d18p+1%float;
  of_Z := Z2float
|}.

(** The same expressions read over the real numbers, without rounding. *)
#[global] Instance R_Number : Number R := {|
  mul := Rmult;
  truediv := λ x y,
    if Req_dec_T y 0%R then Raise ZeroDivisionError else Return (x / y)%R;
  math_pi := PI;
  of_Z := IZR
|}.

(** A positional or keyword argument of a call into the base class: the
    instance itself, or a plain value. *)
Inductive pyarg (I : Type) :=
  | Instance_ (self : I)
  | Value (v : pyval).
Arguments Instance_ {I} self.
Arguments Value {I} v.

Record pycall (I : Type) := mkcall {
  positional : list (pyarg I);
  keywords : list (string * pyarg I)
}.
Arguments mkcall {I} positional keywords.
Arguments positional {I} _.
Arguments keywords {I} _.

(** [v == 1], as Python compares a configuration value with an int. *)
Definition eq_one (v : pyval) : bool :=
  match v with
  | VInt z => z =? 1
  | VBool b => b
  | VFloat f => (f =? 1)%float
  | _ => false
  end.

Module Arm.
(** [self.params]: the entries arm.py reads.  [chain_pitch] is a length in
    metres, a float; whatever ints the other entries hold enter float
    operations and are converted on the way. *)
Record params (T : Type) := mkparams {
  chain_pitch : T;
  chain_sprocket_teeth : T;
  gr_spur : T;
  safe_set_velocit : pyval
}.
Arguments mkparams {T} chain_pitch chain_sprocket_teeth gr_spur safe_set_velocit.
Arguments chain_pitch {T} _.
Arguments chain_sprocket_teeth {T} _.
Arguments gr_spur {T} _.
Arguments safe_set_velocit {T} _.

Section Conversions.
Context {T : Type} `{Number T}.

(** [chain_pitch*chain_sprocket_teeth/gr_spur/(math.pi*2)]. *)
Definition coefficient (self : params T) : outcome T :=
  q ← truediv (mul (chain_pitch self) (chain_sprocket_teeth self)) (gr_spur self);
  truediv q (mul math_pi (of_Z 2)).

Definition motor_rad_to_translate_m (self : params T) (ang : T) : outcome T :=
  c ← coefficient self; mret (mul c ang).

Definition translate_m_to_motor_rad (self : params T) (x : T) : outcome T :=
  c ← coefficient self; truediv x c.
End Conversions.

(** The calls into PrismaticJoint, which is not part of this repository
    slice: each base method is a parameter, applied to the arguments as the
    call site passes them. *)
Section Dispatch.
Context {T Res : Type}.
Variables PrismaticJoint_home PrismaticJoint_set_safe_velocity
          PrismaticJoint_set_velocity : pycall (params T) → Res.

Definition home (self : params T) (end_pos to_positive_stop measuring : pyval)
  : Res :=
  PrismaticJoint_home
    (mkcall [Instance_ self]
            [("end_pos", Value end_pos);
             ("to_positive_stop", Value to_positive_stop);
             ("measuring", Value measuring)]).

Definition set_velocity (self : params T)
    (v_m a_m stiffness contact_thresh_pos_N contact_thresh_neg_N
     req_calibration contact_thresh_pos contact_thresh_neg : pyval) : Res :=
  if eq_one (safe_set_velocit self) then
    PrismaticJoint_set_safe_velocity
      (mkcall [Value v_m; Value a_m; Value stiffness;
               Value contact_thresh_pos_N; Value contact_thresh_neg_N;
               Value req_calibration; Value contact_thresh_pos;
               Value contact_thresh_neg] [])
  else
    PrismaticJoint_set_velocity
      (mkcall [Value v_m; Value a_m; Value stiffness;
               Value contact_thresh_pos_N; Value contact_thresh_neg_N;
               Value req_calibration; Value contact_thresh_pos;
               Value contact_thresh_neg] []).
End Dispatch.
End Arm.

(** Modelled from the spec: the parameter list of the base class's two
    velocity commands, which arm.py does not contain.  The override in
    arm.py repeats it: the receiver, then [v_m], the optional acceleration
    and stiffness, the contact thresholds in newtons, the calibration flag
    (default true) and the two legacy threshold aliases. *)
Definition velocity_parameters : list (string * option pyval) :=
  [("self", None); ("v_m", None); ("a_m", Some VNone);
   ("stiffness", Some VNone); ("contact_thresh_pos_N", Some VNone);
   ("contact_thresh_neg_N", Some VNone); ("req_calibration", Some (VBool true));
   ("contact_thresh_pos", Some VNone); ("contact_thresh_neg", Some VNone)].

(** How a Python call binds positional arguments to a parameter list:
    left to right, then defaults; [None] when an argument is missing or
    left over (TypeError). *)
Fixpoint bind_positional {I} (ps : list (string * option pyval))
    (args : list (pyarg I)) : option (list (string * pyarg I)) :=
  match ps, args with
  | [], [] => Some []
  | [], _ :: _ => None
  | (p, _) :: ps', a :: args' => ((p, a) ::.) <$> bind_positional ps' args'
  | (p, Some d) :: ps', [] => ((p, Value d) ::.) <$> bind_positional ps' []
  | (p, None) :: _, [] => None
  end.

(** ** Vocabulary of the statements *)

(** [n / (c - d)] for ints [n], [d] and a float constant [c], evaluated as
    Python does: the denominator first, then the int-by-float division. *)
Definition quotient (n : Z) (c : float) (d : Z) : outcome float :=
  den ← float_sub_int c d; int_truediv_float n den.

(** [min(q, 1.0)], written as the specification does: clamp above at 1. *)
Definition clamp_max_1 (q : float) : float :=
  if (1 <? q)%float then 1%float else q.

Definition is_Return {A} (o : outcome A) : bool :=
  match o with Return _ => true | _ => false end.

(** Whether a trigger pull lies in [[0.0, 1.0]]. *)
Definition in_unit_interval (v : pyval) : bool :=
  match v with
  | VFloat p => ((0 <=? p) && (p <=? 1))%float
  | _ => false
  end.

(** The exact key set of the snapshot schema, as section 6 of the
    specification enumerates it. *)
Definition snapshot_keys : list string :=
  ["middle_led_ring_button_pressed"; "left_stick_x"; "left_stick_y";
   "right_stick_x"; "right_stick_y"; "left_stick_button_pressed";
   "right_stick_button_pressed"; "bottom_button_pressed";
   "top_button_pressed"; "left_button_pressed"; "right_button_pressed";
   "left_shoulder_button_pressed"; "right_shoulder_button_pressed";
   "select_button_pressed"; "start_button_pressed"; "left_trigger_pulled";
   "right_trigger_pulled"; "bottom_pad_pressed"; "top_pad_pressed";
   "left_pad_pressed"; "right_pad_pressed"].

(** Whether a key names a stick axis or a trigger (a float field). *)
Definition is_analog (key : string) : bool :=
  bool_decide (key ∈ ["left_stick_x"; "left_stick_y"; "right_stick_x";
                      "right_stick_y"; "left_trigger_pulled";
                      "right_trigger_pulled"]).

(** The quiescent snapshot of the Xbox aggregator: every button false,
    every axis and trigger 0.0. *)
Definition quiescent_snapshot : gmap string pyval :=
  list_to_map
    ((λ key, (key, if is_analog key then VFloat 0 else VBool false))
       <$> snapshot_keys).

(** The clock condition under which [refresh] reads the pipe. *)
Definition due (j : Joystick.t) (w : World) : Prop :=
  (Joystick.refreshTime j <? clock w (ticks w))%float = true.

(** The Joystick states a program can reach: what [__init__] returns, and
    what any method leaves behind, whether it returns or raises. *)
Inductive reachable : Joystick.t → Prop :=
  | reach_init fuel rate w j :
      (Joystick.__init__ fuel rate w).1 = Return j → reachable j
  | reach_refresh j w :
      reachable j → reachable (Joystick.refresh (j, w)).2.1
  | reach_connected j w :
      reachable j → reachable (Joystick.connected (j, w)).2.1
  | reach_field lo hi j w :
      reachable j → reachable (Joystick.field lo hi (j, w)).2.1
  | reach_leftX d j w :
      reachable j → reachable (Joystick.leftX d (j, w)).2.1
  | reach_leftY d j w :
      reachable j → reachable (Joystick.leftY d (j, w)).2.1
  | reach_rightX d j w :
      reachable j → reachable (Joystick.rightX d (j, w)).2.1
  | reach_rightY d j w :
      reachable j → reachable (Joystick.rightY d (j, w)).2.1
  | reach_leftTrigger j w :
      reachable j → reachable (Joystick.leftTrigger (j, w)).2.1
  | reach_rightTrigger j w :
      reachable j → reachable (Joystick.rightTrigger (j, w)).2.1
  | reach_leftStick d j w :
      reachable j → reachable (Joystick.leftStick d (j, w)).2.1
  | reach_rightStick d j w :
      reachable j → reachable (Joystick.rightStick d (j, w)).2.1
  | reach_close j w :
      reachable j → reachable (Joystick.close (j, w)).2.1.

(** [motor_rad_to_translate_m(translate_m_to_motor_rad(x)) == x], as
    Python evaluates it on floats. *)
Definition round_trip_eq (self : Arm.params float) (x : float) : outcome bool :=
  ang ← Arm.translate_m_to_motor_rad self x;
  y ← Arm.motor_rad_to_translate_m self ang;
  mret (y =? x)%float.

(** [f] holds of the [n] integers from [z] on: the exhaustive checks of
    the raw 16-bit and 10-bit input ranges run through it. *)
Fixpoint all_from (f : Z → bool) (n : nat) (z : Z) : bool :=
  match n with
  | O => true
  | S n' => f z && all_from f n' (z + 1)
  end.

(** A world to run examples in: the clock advances half a second per
    reading, every executable can be launched, no process runs, and the
    driver never writes a line. *)
Definition example_clock (n : nat) : float := (Z2float (Z.of_nat n) * 0.5)%float.

Definition idle_world : World :=
  mkWorld example_clock 0 [] [] (λ _, true) [] 0 [].

(** The driver's ready banner. *)
Definition banner : bytes := b "Press Ctrl-c to quit" ++ [ascii_of_nat 10].

(** A Joystick as [__init__] leaves it after the banner, and the world
    then (three clock readings: one for [waitTime], one per loop test),
    with [p] waiting on the driver's stdout. *)
Definition fresh_joystick : Joystick.t :=
  Joystick.mk false (replicate 140 "0"%char) 0 (1 / 30)%float.

Definition world_with (p : list pipe_event) : World :=
  mkWorld example_clock 3 p [] (λ _, true)
          [["xboxdrv"; "--no-uinput"; "--detach-kernel-driver"]] 0 [].

(** A method keeps the stored reading 140 characters long, whether it
    returns or raises. *)
Definition keeps_length {A} (m : py (Joystick.t * World) A) : Prop :=
  ∀ j w, length (Joystick.reading j) = 140%nat →
         length (Joystick.reading (m (j, w)).2.1) = 140%nat.

(** A GamePadController instance on which the input attributes have been
    bound by hand, to objects with the attributes [set_zero_state] and
    [get_state] use; [__init__] binds only the lock. *)
Definition button_object : pyval := VObj {["pressed" := VBool true]}.
Definition stick_object : pyval :=
  VObj (<["x" := VFloat 0.5]> {["y" := VFloat (-0.25)]}).
Definition trigger_object : pyval := VObj {["pulled" := VFloat 1]}.

Definition wired_gamepad : gmap string pyval :=
  list_to_map
    ([("lock", VObj ∅); ("left_stick", stick_object);
      ("right_stick", stick_object); ("left_trigger", trigger_object);
      ("right_trigger", trigger_object)]
     ++ ((λ name, (name, button_object)) <$>
           ["middle_led_ring_button"; "left_stick_button";
            "right_stick_button"; "bottom_button"; "top_button";
            "left_button"; "right_button"; "left_shoulder_button";
            "right_shoulder_button"; "select_button"; "start_button";
            "bottom_pad"; "top_pad"; "left_pad"; "right_pad"])).

(** Whether a snapshot field holds its zero or false default. *)
Definition reads_zero (v : option pyval) : bool :=
  match v with
  | Some (VBool false) => true
  | Some (VInt 0) => true
  | Some (VFloat f) => (f =? 0)%float
  | _ => false
  end.

(** The value a call returned, if it returned. *)
Definition returned {A} (dflt : A) (o : outcome A) : A :=
  match o with Return a => a | _ => dflt end.

(** Whether [axisScale] returned a value in [[-1.0, 1.0]]. *)
Definition in_axis_range (o : outcome float) : bool :=
  match o with
  | Return f => ((-1 <=? f) && (f <=? 1))%float
  | _ => false
  end.

(** The XboxController states a program can reach: what [__init__]
    builds, and what any method leaves behind. *)
Inductive xbox_reachable : XboxController.t → Prop :=
  | xreach_init : xbox_reachable XboxController.__init__
  | xreach_start fuel c w :
      xbox_reachable c → xbox_reachable (XboxController.start fuel (c, w)).2.1
  | xreach_stop c w :
      xbox_reachable c → xbox_reachable (XboxController.stop (c, w)).2.1
  | xreach_update c w :
      xbox_reachable c → xbox_reachable (XboxController.update (c, w)).2.1
  | xreach_get_state c w :
      xbox_reachable c → xbox_reachable (XboxController.get_state (c, w)).2.1.

(** No refresh is due, now or at any later clock reading. *)
Definition never_due (j : Joystick.t) (w : World) : Prop :=
  ∀ n, (Joystick.refreshTime j <? clock w n)%float = false.

(** An outcome other than an IOError, the one exception [update] and
    [start] catch. *)
Definition no_IOError {A} (o : outcome A) : Prop :=
  ∀ msg, o ≠ Raise (IOError msg).

(** What the accessors make of a stored reading, without the refresh:
    a stick axis with the deadzone 0 that [update] passes, a trigger, and
    the snapshot [update] and [get_state] build from all 21 fields, read
    in the order of [update]. *)
Definition decode_axis (lo hi : nat) (reading : bytes) : outcome float :=
  raw ← int_ (slice lo hi reading); axisScale raw 0.

Definition decode_trigger (lo hi : nat) (reading : bytes) : outcome float :=
  v ← int_ (slice lo hi reading); int_truediv_float v 255.

Definition telemetry (reading : bytes) : outcome (gmap string pyval) :=
  left_x ← decode_axis 3 9 reading;
  left_y ← decode_axis 13 19 reading;
  right_x ← decode_axis 24 30 reading;
  right_y ← decode_axis 34 40 reading;
  dpad_left ← int_ (slice 55 56 reading);
  dpad_right ← int_ (slice 60 61 reading);
  dpad_up ← int_ (slice 45 46 reading);
  dpad_down ← int_ (slice 50 51 reading);
  a ← int_ (slice 100 101 reading);
  y ← int_ (slice 112 113 reading);
  x ← int_ (slice 108 109 reading);
  b ← int_ (slice 104 105 reading);
  left_thumb ← int_ (slice 90 91 reading);
  right_thumb ← int_ (slice 95 96 reading);
  left_bumper ← int_ (slice 118 119 reading);
  right_bumper ← int_ (slice 123 124 reading);
  left_trigger ← decode_trigger 129 132 reading;
  right_trigger ← decode_trigger 136 139 reading;
  start ← int_ (slice 84 85 reading);
  back ← int_ (slice 68 69 reading);
  guide ← int_ (slice 76 77 reading);
  Return (list_to_map
    [("middle_led_ring_button_pressed", VInt guide);
     ("left_stick_x", VFloat left_x);
     ("left_stick_y", VFloat left_y);
     ("right_stick_x", VFloat right_x);
     ("right_stick_y", VFloat right_y);
     ("left_stick_button_pressed", VInt left_thumb);
     ("right_stick_button_pressed", VInt right_thumb);
     ("bottom_button_pressed", VInt a);
     ("top_button_pressed", VInt y);
     ("left_button_pressed", VInt x);
     ("right_button_pressed", VInt b);
     ("left_shoulder_button_pressed", VInt left_bumper);
     ("right_shoulder_button_pressed", VInt right_bumper);
     ("select_button_pressed", VInt back);
     ("start_button_pressed", VInt start);
     ("left_trigger_pulled", VFloat left_trigger);
     ("right_trigger_pulled", VFloat right_trigger);
     ("bottom_pad_pressed", VInt dpad_down);
     ("top_pad_pressed", VInt dpad_up);
     ("left_pad_pressed", VInt dpad_left);
     ("right_pad_pressed", VInt dpad_right)]).

(** Whether a stick coordinate lies in [[-1.0, 1.0]]. *)
Definition in_unit_ball (v : pyval) : bool :=
  match v with
  | VFloat f => ((-1 <=? f) && (f <=? 1))%float
  | _ => false
  end.

(** [axisScale] does not decrease from [r] to [r + 1]. *)
Definition axis_step_ok (d r : Z) : bool :=
  match axisScale r d, axisScale (r + 1) d with
  | Return f, Return g => (f <=? g)%float
  | _, _ => false
  end.

(** [self.obj.attr] as a lookup in an instance dictionary. *)
Definition lookup2 (g : gmap string pyval) (obj attr : string) : option pyval :=
  match g !! obj with
  | Some (VObj d) => d !! attr
  | _ => None
  end.

(** An instance on which [set_zero_state] and [get_state] find what they
    use: the lock, and an object under every attribute they go through. *)
Definition wired (g : gmap string pyval) : Prop :=
  is_Some (g !! "lock") ∧
  ∀ obj attr v, (obj, attr, v) ∈ GamePadController.zero_assignments →
                ∃ d, g !! obj = Some (VObj d).

(** The snapshot of the generic poller after [set_zero_state], which
    writes the int 0, not 0.0, to the axes and triggers. *)
Definition gamepad_zero_snapshot : gmap string pyval :=
  list_to_map
    ((λ key, (key, if is_analog key then VInt 0 else VBool false))
       <$> snapshot_keys).

(** ** Properties *)

(** *** Numbers and text *)


Lemma all_from_spec f n lo z :
  all_from f n lo = true → lo <= z < lo + Z.of_nat n → f z = true.
Proof.
  revert lo. induction n as [|n IH]; intros lo Hall Hz; [lia|].
  simpl in Hall. apply andb_prop in Hall as [Hlo Hrest].
  destruct (decide (z = lo)) as [->|Hne]; [exact Hlo|].
  apply (IH (lo + 1)); [exact Hrest|lia].
Qed.

(** Ints of at most 17 bits convert to a float without overflow. *)
Lemma float_of_int_small (z : Z) :
  -65536 <= z <= 65536 → float_of_int z = Return (Z2float z).
Proof.
  intros Hz.
  assert (Hall : all_from (λ n, is_Return (float_of_int n))
                          (Z.to_nat 131073) (-65536) = true)
    by (vm_compute; reflexivity).
  pose proof (all_from_spec _ _ _ z Hall) as H.
  rewrite Z2Nat.id in H by lia. specialize (H ltac:(lia)).
  unfold float_of_int in *.
  destruct (PrimFloat.is_infinity (Z2float z)); [discriminate|reflexivity].
Qed.

(** Neither denominator of the axis-scale rule vanishes for a deadzone
    below the positive end of the 16-bit range. *)
Lemma axis_denominators_nonzero (d : Z) :
  0 <= d <= 32766 →
  (32768 - Z2float d =? 0)%float = false ∧
  (32767 - Z2float d =? 0)%float = false.
Proof.
  intros Hd.
  assert (Hall : all_from (λ n, negb (32768 - Z2float n =? 0)%float &&
                                negb (32767 - Z2float n =? 0)%float)
                          (Z.to_nat 32767) 0 = true)
    by (vm_compute; reflexivity).
  pose proof (all_from_spec _ _ _ d Hall) as H.
  rewrite Z2Nat.id in H by lia. specialize (H ltac:(lia)).
  apply andb_prop in H as [H1 H2].
  split; [destruct (_ =? _)%float | destruct (32767 - _ =? _)%float];
    done.
Qed.

(** *** Input primitives *)

Example axisScale_full_right : axisScale 32767 4000 = Return 1%float.
Proof. vm_compute; reflexivity. Qed.

Example axisScale_full_left : axisScale (-32768) 4000 = Return (-1)%float.
Proof. vm_compute; reflexivity. Qed.

Example axisScale_zero_denominator :
  axisScale (-32768) 32768 = Raise ZeroDivisionError.
Proof. vm_compute; reflexivity. Qed.

(** Inside the 16-bit range and with a deadzone below its positive end,
    [axisScale] returns a float: no conversion overflows and no
    denominator is zero. *)
Lemma axisScale_returns (r d : Z) :
  -32768 <= r <= 32767 → 0 <= d <= 32766 → is_Return (axisScale r d) = true.
Proof.
  intros Hr Hd. unfold axisScale.
  destruct (axis_denominators_nonzero d Hd) as [Hneg Hpos].
  destruct (Z.abs r <? d); [reflexivity|].
  unfold float_sub_int, int_truediv_float, float_truediv.
  destruct (r <? 0);
    rewrite !float_of_int_small by lia; cbn;
    rewrite ?Hneg, ?Hpos; reflexivity.
Qed.

(** With the default deadzone, and with the deadzone 0 that
    XboxController.update passes, every raw 16-bit value scales into
    [[-1.0, 1.0]]. *)
Lemma axisScale_range (r d : Z) :
  -32768 <= r <= 32767 → d = 0 ∨ d = 4000 →
  in_axis_range (axisScale r d) = true.
Proof.
  intros Hr Hd.
  assert (Hall : all_from (λ n, in_axis_range (axisScale n 0) &&
                                in_axis_range (axisScale n 4000))
                          (Z.to_nat 65536) (-32768) = true)
    by (vm_compute; reflexivity).
  pose proof (all_from_spec _ _ _ r Hall) as H.
  rewrite Z2Nat.id in H by lia. specialize (H ltac:(lia)).
  apply andb_prop in H as [H0 H4000].
  by destruct Hd as [-> | ->].
Qed.

Lemma axisScale_range_witness : in_axis_range (axisScale (-32768) 0) = true.
Proof. apply (axisScale_range (-32768) 0); [lia|by left]. Defined.

(** [Button.update] sets the flag for 0 and 1 and ignores every other
    state. *)
Lemma button_update_rule (t : Button.t) (state : Z) :
  Button.update 0 t = Button.mk (VBool false) ∧
  Button.update 1 t = Button.mk (VBool true) ∧
  (state ≠ 0 → state ≠ 1 → Button.update state t = t).
Proof.
  repeat split. intros H0 H1. unfold Button.update.
  destruct (Z.eqb_spec state 0); [done|].
  by destruct (Z.eqb_spec state 1).
Qed.

(** C8.  The axis-scale rule: for every raw value [r] and deadzone
    half-width [d], [axisScale r d] is 0.0 when |r| < d, the quotient
    (r + d) / (32768 - d) when r is negative, and (r - d) / (32767 - d)
    otherwise; full deflection saturates at 1.0 and -1.0 with the default
    deadzone of 4000, and -3999, 0 and 3999 fall into the deadzone. *)
Theorem axisScale_rule :
  (∀ r d : Z,
     axisScale r d =
       if decide (Z.abs r < d) then Return 0%float
       else if decide (r < 0) then quotient (r + d) 32768 d
       else quotient (r - d) 32767 d) ∧
  axisScale 32767 4000 = Return 1%float ∧
  axisScale (-32768) 4000 = Return (-1)%float ∧
  axisScale (-3999) 4000 = Return 0%float ∧
  axisScale 0 4000 = Return 0%float ∧
  axisScale 3999 4000 = Return 0%float.
Proof.
  split; [|repeat split; vm_compute; reflexivity].
  intros r d. unfold axisScale, quotient.
  destruct (Z.ltb_spec (Z.abs r) d), (Z.ltb_spec r 0);
    repeat case_decide; try lia; reflexivity.
Qed.

Example trigger_update_300 :
  Trigger.update 300 (Trigger.__init__ false)
  = Return (Trigger.mk 255 (VFloat 1)).
Proof. vm_compute; reflexivity. Qed.

(** On the raw range of either controller generation the pull lies in
    [[0.0, 1.0]]. *)
Lemma trigger_update_range (xbox_one : bool) (state : Z) :
  0 <= state <= 1023 →
  ∃ p, Trigger.update state (Trigger.__init__ xbox_one)
       = Return (Trigger.mk (Trigger.norm (Trigger.__init__ xbox_one)) p)
       ∧ in_unit_interval p = true.
Proof.
  intros Hs.
  assert (Hall : all_from (λ n,
            match Trigger.update n (Trigger.__init__ xbox_one) with
            | Return t => in_unit_interval (Trigger.pulled t)
            | _ => false
            end) (Z.to_nat 1024) 0 = true)
    by (destruct xbox_one; vm_compute; reflexivity).
  pose proof (all_from_spec _ _ _ state Hall) as H.
  rewrite Z2Nat.id in H by lia. specialize (H ltac:(lia)).
  unfold Trigger.update in *.
  destruct (int_truediv_float state _) as [q| |]; try discriminate.
  eexists; split; [reflexivity|exact H].
Qed.

Lemma trigger_update_range_witness :
  ∃ p, Trigger.update 300 (Trigger.__init__ false)
       = Return (Trigger.mk (Trigger.norm (Trigger.__init__ false)) p)
       ∧ in_unit_interval p = true.
Proof. apply (trigger_update_range false 300). lia. Defined.

(** C9.  A trigger built with the 10-bit flag divides by 1023, one built
    with the default 8-bit flag by 255; [update state] stores the quotient
    of [state] by the divisor, clamped above at 1.0, for every [state] and
    every trigger; a raw 300 on an 8-bit trigger gives 1.0. *)
Theorem trigger_update_rule :
  Trigger.norm (Trigger.__init__ true) = 1023%float ∧
  Trigger.norm (Trigger.__init__ false) = 255%float ∧
  (∀ (t : Trigger.t) (state : Z),
     Trigger.update state t =
       q ← int_truediv_float state (Trigger.norm t);
       Return (Trigger.mk (Trigger.norm t) (VFloat (clamp_max_1 q)))) ∧
  (∀ (t t' : Trigger.t) (state : Z) (p : float),
     Trigger.update state t = Return t' → Trigger.pulled t' = VFloat p →
     (1 <? p)%float = false) ∧
  Trigger.update 300 (Trigger.__init__ false)
  = Return (Trigger.mk 255 (VFloat 1)).
Proof.
  split; [vm_compute; reflexivity|].
  split; [vm_compute; reflexivity|].
  split; [reflexivity|].
  split; [|vm_compute; reflexivity].
  intros t t' state p Hupd Hp. unfold Trigger.update in Hupd.
  destruct (int_truediv_float state (Trigger.norm t)) as [q| |];
    cbn in Hupd; try discriminate.
  injection Hupd as <-. cbn in Hp. injection Hp as <-.
  destruct (1 <? q)%float eqn:Hq; [vm_compute; reflexivity|exact Hq].
Qed.

(** *** Joystick: the refresh loop *)

(** The loop over lines that are all non-empty ends at the first idle poll
    and yields the last line. *)
Lemma read_lines_nonempty (ls : list bytes) (l0 : bytes) (rest : list pipe_event) :
  Forall (λ l, l ≠ []) (l0 :: ls) →
  (∀ l', head rest ≠ Some (Line l')) →
  Joystick.read_lines l0 ((Line <$> ls) ++ rest)
  = (Return (default l0 (last ls)), tail rest).
Proof.
  revert l0. induction ls as [|l1 ls IH]; intros l0 Hne Hrest.
  - apply Forall_cons in Hne as [Hl0 _].
    destruct l0 as [|c l0]; [done|].
    destruct rest as [|[|l'] rest]; cbn; try reflexivity.
    exfalso. by apply (Hrest l').
  - apply Forall_cons in Hne as [Hl0 Hls].
    destruct l0 as [|c l0]; [done|].
    cbn [fmap list_fmap app Joystick.read_lines length Nat.eqb].
    rewrite (IH l1 Hls Hrest).
    f_equal. f_equal. rewrite last_cons. by destruct (last ls).
Qed.

Lemma read_lines_nil (p : list pipe_event) :
  Joystick.read_lines [] p
  = (Raise (IOError "Xbox controller disconnected from USB"), p).
Proof. by destruct p. Qed.

(** The loop raises at the first line of length zero. *)
Lemma read_lines_empty (pre : list bytes) (l0 : bytes) (post : list pipe_event) :
  Forall (λ l, l ≠ []) pre →
  Joystick.read_lines l0 ((Line <$> pre) ++ Line [] :: post)
  = (Raise (IOError "Xbox controller disconnected from USB"),
     if decide (l0 = []) then (Line <$> pre) ++ Line [] :: post else post).
Proof.
  revert l0. induction pre as [|l1 pre IH]; intros l0 Hne.
  - destruct l0; [apply read_lines_nil|].
    cbn [fmap list_fmap app Joystick.read_lines length Nat.eqb].
    apply read_lines_nil.
  - apply Forall_cons in Hne as [Hl1 Hpre].
    destruct l0 as [|c l0]; [apply read_lines_nil|].
    cbn [fmap list_fmap app Joystick.read_lines length Nat.eqb].
    rewrite (IH l1 Hpre). by rewrite decide_False.
Qed.

(** C7.  A due refresh that meets a zero-length read raises the
    disconnection error, whatever the connection status was; before it,
    only the next refresh time has been set: the stored reading and the
    status are as they were. *)
Theorem refresh_zero_length_raises
    (j : Joystick.t) (w : World) (pre : list bytes) (post : list pipe_event) :
  due j w →
  Forall (λ l, l ≠ []) pre →
  pipe w = (Line <$> pre) ++ Line [] :: post →
  (Joystick.refresh (j, w)).1
    = Raise (IOError "Xbox controller disconnected from USB") ∧
  Joystick.connectStatus (Joystick.refresh (j, w)).2.1
    = Joystick.connectStatus j ∧
  Joystick.reading (Joystick.refresh (j, w)).2.1 = Joystick.reading j.
Proof.
  unfold due. intros Hdue Hpre Hpipe.
  unfold Joystick.refresh, time_time, select_, readline. cbn.
  rewrite Hdue, Hpipe.
  destruct pre as [|l0 pre]; cbn.
  - rewrite read_lines_nil. done.
  - apply Forall_cons in Hpre as [Hl0 Hpre].
    rewrite (read_lines_empty pre l0 post Hpre). done.
Qed.

(** C6.  A due refresh whose last line is non-empty but not 140
    characters long returns normally, marks the controller disconnected and
    keeps the stored reading, so every field decodes as before. *)
Theorem refresh_bad_length_disconnects
    (j : Joystick.t) (w : World) (pre : list bytes) (l : bytes)
    (post : list pipe_event) :
  due j w →
  Forall (λ l, l ≠ []) pre →
  l ≠ [] → length l ≠ 140%nat →
  pipe w = (Line <$> pre) ++ Line l :: post →
  (∀ l', head post ≠ Some (Line l')) →
  (Joystick.refresh (j, w)).1 = Return tt ∧
  Joystick.connectStatus (Joystick.refresh (j, w)).2.1 = false ∧
  Joystick.reading (Joystick.refresh (j, w)).2.1 = Joystick.reading j ∧
  ∀ lo hi,
    int_ (slice lo hi (Joystick.reading (Joystick.refresh (j, w)).2.1))
    = int_ (slice lo hi (Joystick.reading j)).
Proof.
  unfold due. intros Hdue Hpre Hl Hlen Hpipe Hpost.
  assert (Hrun :
    (Joystick.refresh (j, w)).1 = Return tt ∧
    Joystick.connectStatus (Joystick.refresh (j, w)).2.1 = false ∧
    Joystick.reading (Joystick.refresh (j, w)).2.1 = Joystick.reading j).
  { unfold Joystick.refresh, time_time, select_, readline. cbn.
    rewrite Hdue, Hpipe.
    assert (Hlast : ∀ l0 ls, l0 :: ls = pre ++ [l] →
              Joystick.read_lines l0 ((Line <$> ls) ++ post)
              = (Return l, tail post)).
    { intros l0 ls Heq.
      rewrite read_lines_nonempty; [|rewrite Heq|done].
      - f_equal. f_equal.
        destruct pre as [|p0 pre']; simplify_eq/=; [done|].
        by rewrite last_snoc.
      - apply Forall_app; split; [done|by apply Forall_singleton]. }
    destruct pre as [|l0 pre]; cbn.
    - specialize (Hlast l [] eq_refl). cbn in Hlast. rewrite Hlast.
      apply Nat.eqb_neq in Hlen. rewrite Hlen. done.
    - replace ((Line <$> pre) ++ Line l :: post)
        with ((Line <$> (pre ++ [l])) ++ post)
        by (rewrite fmap_app, <- app_assoc; done).
      rewrite (Hlast l0 (pre ++ [l]) eq_refl).
      apply Nat.eqb_neq in Hlen. rewrite Hlen. done. }
  destruct Hrun as (Hret & Hconn & Hread).
  repeat split; try done. intros lo hi. by rewrite Hread.
Qed.

Example init_on_banner :
  let r := Joystick.__init__ 5 30 (set_pipe [Line banner] idle_world) in
  r.1 = Return fresh_joystick ∧
  ticks r.2 = ticks (world_with []) ∧ pipe r.2 = [] ∧
  spawned r.2 = spawned (world_with []).
Proof. vm_compute; done. Qed.

(** C7 at a concrete input: a connected Joystick whose driver has closed
    its stdout. *)
Lemma refresh_zero_length_raises_witness :
  (Joystick.refresh
     (Joystick.set_connectStatus true fresh_joystick, world_with [Line []])).1
    = Raise (IOError "Xbox controller disconnected from USB") ∧
  Joystick.connectStatus
    (Joystick.refresh
       (Joystick.set_connectStatus true fresh_joystick,
        world_with [Line []])).2.1
    = true ∧
  Joystick.reading
    (Joystick.refresh
       (Joystick.set_connectStatus true fresh_joystick,
        world_with [Line []])).2.1
    = replicate 140 "0"%char.
Proof.
  apply (refresh_zero_length_raises
           (Joystick.set_connectStatus true fresh_joystick)
           (world_with [Line []]) [] []).
  - vm_compute; reflexivity.
  - constructor.
  - reflexivity.
Defined.

(** C6 at a concrete input: a connected Joystick reads a short line
    after a first, longer one. *)
Lemma refresh_bad_length_disconnects_witness :
  let j := Joystick.set_connectStatus true fresh_joystick in
  let w := world_with [Line (b "first"); Line (b "lost"); NotReady] in
  (Joystick.refresh (j, w)).1 = Return tt ∧
  Joystick.connectStatus (Joystick.refresh (j, w)).2.1 = false ∧
  Joystick.reading (Joystick.refresh (j, w)).2.1 = Joystick.reading j ∧
  ∀ lo hi,
    int_ (slice lo hi (Joystick.reading (Joystick.refresh (j, w)).2.1))
    = int_ (slice lo hi (Joystick.reading j)).
Proof.
  intros j w.
  apply (refresh_bad_length_disconnects j w [b "first"] (b "lost") [NotReady]).
  - vm_compute; reflexivity.
  - repeat constructor; discriminate.
  - discriminate.
  - vm_compute; discriminate.
  - reflexivity.
  - intros l'; discriminate.
Defined.

(** *** Joystick: the length of the stored reading *)

Lemma keeps_bind {A B} (m : py (Joystick.t * World) A)
    (f : A → py (Joystick.t * World) B) :
  keeps_length m → (∀ a, keeps_length (f a)) → keeps_length (m ≫= f).
Proof.
  intros Hm Hf j w Hj. unfold mbind, py_bind.
  specialize (Hm j w Hj).
  destruct (m (j, w)) as [[a|e|] [j' w']]; cbn in *; [|done..].
  by apply Hf.
Qed.

Lemma keeps_mret {A} (a : A) : keeps_length (mret a).
Proof. by intros j w Hj. Qed.

Lemma keeps_lift {A} (o : outcome A) : keeps_length (lift o).
Proof. by intros j w Hj. Qed.

Lemma keeps_self : keeps_length self.
Proof. by intros j w Hj. Qed.

Lemma keeps_close : keeps_length Joystick.close.
Proof. by intros j w Hj. Qed.

Lemma keeps_refresh : keeps_length Joystick.refresh.
Proof.
  intros j w Hj. unfold Joystick.refresh, time_time, select_, readline. cbn.
  destruct (_ <? _)%float; [|done]. cbn.
  destruct (pipe w) as [|[|l] p]; cbn; try done.
  destruct (Joystick.read_lines l p) as [[response|e|] p'] eqn:Hread;
    cbn; try done.
  destruct (length response =? 140)%nat eqn:Hlen; cbn; [|done].
  by apply Nat.eqb_eq.
Qed.

Create HintDb keeps.
#[local] Hint Resolve keeps_mret keeps_lift keeps_self keeps_close
  keeps_refresh : keeps.
#[local] Hint Extern 2 (keeps_length (_ ≫= _)) =>
  apply keeps_bind; [|intros] : keeps.

Lemma keeps_field lo hi : keeps_length (Joystick.field lo hi).
Proof. unfold Joystick.field. auto with keeps. Qed.

#[local] Hint Resolve keeps_field : keeps.

Lemma keeps_axes d :
  keeps_length (Joystick.leftX d) ∧ keeps_length (Joystick.leftY d) ∧
  keeps_length (Joystick.rightX d) ∧ keeps_length (Joystick.rightY d).
Proof.
  unfold Joystick.leftX, Joystick.leftY, Joystick.rightX, Joystick.rightY.
  repeat split; auto with keeps.
Qed.

Lemma keeps_triggers :
  keeps_length Joystick.leftTrigger ∧ keeps_length Joystick.rightTrigger.
Proof.
  unfold Joystick.leftTrigger, Joystick.rightTrigger.
  split; auto with keeps.
Qed.

Lemma keeps_sticks d :
  keeps_length (Joystick.leftStick d) ∧ keeps_length (Joystick.rightStick d).
Proof.
  destruct (keeps_axes d) as (? & ? & ? & ?).
  unfold Joystick.leftStick, Joystick.rightStick.
  split; auto 10 with keeps.
Qed.

Lemma keeps_connected : keeps_length Joystick.connected.
Proof. unfold Joystick.connected. auto with keeps. Qed.

(** The detection loop hands back a reading of 140 characters. *)
Lemma detect_length fuel waitTime j w j' :
  length (Joystick.reading j) = 140%nat →
  (Joystick.detect fuel waitTime j w).1 = Return j' →
  length (Joystick.reading j') = 140%nat.
Proof.
  revert w. induction fuel as [|fuel IH]; intros w Hj; [discriminate|].
  cbn [Joystick.detect]. unfold time_time, select_, readline. cbn.
  destruct (_ <? _)%float; [|discriminate].
  destruct (pipe w) as [|[|l] p]; cbn; [apply IH, Hj..|].
  case_bool_decide; [discriminate|].
  destruct (length l =? 140)%nat eqn:Hlen.
  - cbn. intros Heq. simplify_eq. cbn. by apply Nat.eqb_eq.
  - case_bool_decide; [cbn; intros Heq; by simplify_eq|]. by apply IH.
Qed.

Lemma init_length fuel rate w j :
  (Joystick.__init__ fuel rate w).1 = Return j →
  length (Joystick.reading j) = 140%nat.
Proof.
  unfold Joystick.__init__, mbind, py_bind, lift.
  destruct (Popen _ w) as [[[]|e|] w1]; [|discriminate..].
  destruct (outcome_bind _ _ _ _) as [delay|e|]; [|discriminate..].
  apply detect_length. reflexivity.
Qed.

Lemma reachable_length (j : Joystick.t) :
  reachable j → length (Joystick.reading j) = 140%nat.
Proof.
  induction 1 as [fuel rate w j Hinit| | | | | | | | | | | |].
  - by eapply init_length.
  - by apply keeps_refresh.
  - by apply keeps_connected.
  - by apply keeps_field.
  - by apply keeps_axes.
  - by apply keeps_axes.
  - by apply keeps_axes.
  - by apply keeps_axes.
  - by apply keeps_triggers.
  - by apply keeps_triggers.
  - by apply keeps_sticks.
  - by apply keeps_sticks.
  - by apply keeps_close.
Qed.

(** A slice of a 140-character reading that ends within it has its full
    width. *)
Lemma slice_length (lo hi : nat) (s : bytes) :
  (lo ≤ hi)%nat → (hi ≤ length s)%nat → length (slice lo hi s) = (hi - lo)%nat.
Proof.
  intros Hlo Hhi. unfold slice. rewrite length_take, length_drop. lia.
Qed.

(** C10.  In every reachable Joystick state the stored reading is exactly
    140 characters long, so each slice an accessor takes lies within it and
    has its full width; and the reading a Joystick starts with, 140 zero
    characters, decodes to 0 at every accessor's slice. *)
Theorem reading_length_invariant (j : Joystick.t) :
  reachable j →
  length (Joystick.reading j) = 140%nat ∧
  Forall (λ '(lo, hi),
            (lo ≤ hi ≤ 140)%nat ∧
            length (slice lo hi (Joystick.reading j)) = (hi - lo)%nat)
         Joystick.accessor_slices ∧
  Forall (λ '(lo, hi), int_ (slice lo hi (replicate 140 "0"%char)) = Return 0)
         Joystick.accessor_slices.
Proof.
  intros Hj. pose proof (reachable_length j Hj) as Hlen.
  split; [exact Hlen|]. split.
  - unfold Joystick.accessor_slices.
    repeat (apply Forall_cons; split;
            [split; [lia|apply slice_length; lia]|]).
    apply Forall_nil_2.
  - unfold Joystick.accessor_slices.
    repeat (apply Forall_cons; split; [vm_compute; reflexivity|]).
    apply Forall_nil_2.
Qed.

(** C10 at a concrete input: the Joystick built on the driver's banner,
    before any telemetry. *)
Lemma reading_length_invariant_witness :
  length (Joystick.reading fresh_joystick) = 140%nat ∧
  Forall (λ '(lo, hi),
            (lo ≤ hi ≤ 140)%nat ∧
            length (slice lo hi (Joystick.reading fresh_joystick))
            = (hi - lo)%nat)
         Joystick.accessor_slices ∧
  Forall (λ '(lo, hi), int_ (slice lo hi (replicate 140 "0"%char)) = Return 0)
         Joystick.accessor_slices.
Proof.
  apply (reading_length_invariant fresh_joystick).
  apply (reach_init 5 30 (set_pipe [Line banner] idle_world) fresh_joystick).
  vm_compute; reflexivity.
Defined.

(** *** XboxController *)

(** Without a client, [update] does nothing. *)
Lemma update_no_client (c : XboxController.t) (w : World) :
  XboxController.joy c = None →
  XboxController.update (c, w) = (Return tt, (c, w)).
Proof.
  intros Hjoy. destruct c as [st bt tr j]. cbn in Hjoy. by subst j.
Qed.

(** Without a client, [get_state] returns, and leaves the controller as
    it was. *)
Lemma get_state_no_client (c : XboxController.t) (w : World) :
  XboxController.joy c = None →
  ∃ s, XboxController.get_state (c, w) = (Return s, (c, w)).
Proof.
  intros Hjoy. unfold XboxController.get_state, mbind, py_bind.
  rewrite (update_no_client c w Hjoy). cbn -[XboxController.state_dict]. eauto.
Qed.

Lemma state_dict_fresh :
  XboxController.state_dict XboxController.__init__ = quiescent_snapshot.
Proof.
  unfold XboxController.state_dict, quiescent_snapshot. f_equal.
Qed.

(** A controller that was never given a client reports the quiescent
    snapshot. *)
Lemma get_state_fresh (w : World) :
  XboxController.get_state (XboxController.__init__, w)
  = (Return quiescent_snapshot, (XboxController.__init__, w)).
Proof.
  unfold XboxController.get_state, mbind, py_bind.
  rewrite (update_no_client XboxController.__init__ w eq_refl).
  cbn -[XboxController.state_dict]. by rewrite state_dict_fresh.
Qed.

(** The keys of the snapshot, whatever [update] did before. *)
Lemma xbox_get_state_keys (c : XboxController.t) (w : World)
    (s : gmap string pyval) :
  (XboxController.get_state (c, w)).1 = Return s →
  dom s = list_to_set snapshot_keys.
Proof.
  unfold XboxController.get_state, mbind, py_bind.
  destruct (XboxController.update (c, w)) as [[[]|e|] [c' w']];
    cbn -[XboxController.state_dict]; [|discriminate..].
  intros Heq. simplify_eq. unfold XboxController.state_dict.
  rewrite dom_list_to_map_L. reflexivity.
Qed.

Lemma snapshot_keys_NoDup : NoDup snapshot_keys.
Proof. apply (bool_decide_unpack _). vm_compute. reflexivity. Qed.

Lemma snapshot_keys_size : size (list_to_set snapshot_keys : gset string) = 21%nat.
Proof. rewrite size_list_to_set by apply snapshot_keys_NoDup. reflexivity. Qed.

(** No method changes a controller that has no client. *)
Lemma start_no_client fuel (c : XboxController.t) (w : World) :
  XboxController.joy c = None → (XboxController.start fuel (c, w)).2.1 = c.
Proof.
  intros Hjoy. destruct c as [st bt tr j]. cbn in Hjoy. subst j.
  assert (Hx : bool_decide ("xbox" ∈ module_globals) = false)
    by (vm_compute; reflexivity).
  unfold XboxController.start, XboxController.start_in, load_global.
  rewrite Hx.
  unfold mbind, py_bind, try_except_IOError, os, os_try, Popen.
  cbn -[bool_decide].
  destruct (bool_decide ("xboxdrv" ∈ procs w)); cbn; [|done].
  by destruct (can_spawn w "killall").
Qed.

Lemma stop_no_client (c : XboxController.t) (w : World) :
  XboxController.joy c = None → XboxController.stop (c, w) = (Return tt, (c, w)).
Proof.
  intros Hjoy. destruct c as [st bt tr j]. cbn in Hjoy. by subst j.
Qed.

(** Since [start] never attaches a client, a reachable controller is the
    one [__init__] built: its primitives are never written. *)
Lemma xbox_reachable_initial (c : XboxController.t) :
  xbox_reachable c → c = XboxController.__init__.
Proof.
  induction 1 as [|fuel c w _ ->|c w _ ->|c w _ ->|c w _ ->].
  - reflexivity.
  - by apply start_no_client.
  - by rewrite stop_no_client.
  - by rewrite update_no_client.
  - by rewrite get_state_fresh.
Qed.

(** In every reachable state [get_state] returns, and what it returns is
    the quiescent snapshot. *)
Lemma xbox_get_state_reachable (c : XboxController.t) (w : World) :
  xbox_reachable c →
  XboxController.get_state (c, w) = (Return quiescent_snapshot, (c, w)).
Proof.
  intros Hc. rewrite (xbox_reachable_initial c Hc). apply get_state_fresh.
Qed.

Lemma xbox_get_state_reachable_witness :
  XboxController.get_state
    ((XboxController.start 10 (XboxController.__init__, idle_world)).2.1,
     idle_world)
  = (Return quiescent_snapshot,
     ((XboxController.start 10 (XboxController.__init__, idle_world)).2.1,
      idle_world)).
Proof.
  apply (xbox_get_state_reachable _ idle_world).
  apply xreach_start, xreach_init.
Defined.

(** C1.  What [start] does: it returns True only when launching [killall]
    itself fails with an OSError; in every other world the name [xbox] of
    [xbox.Joystick()] is unbound, the NameError is not an IOError, and it
    leaves [start] before any client is constructed.  The client reference
    is never set. *)
Theorem start_never_constructs_client
    (fuel : nat) (c : XboxController.t) (w : World) :
  (XboxController.start fuel (c, w)).1
    = (if bool_decide ("xboxdrv" ∈ procs w) && negb (can_spawn w "killall")
       then Return true else Raise (NameError "xbox")) ∧
  XboxController.joy (XboxController.start fuel (c, w)).2.1
    = (if bool_decide ("xboxdrv" ∈ procs w) && negb (can_spawn w "killall")
       then None else XboxController.joy c).
Proof.
  assert (Hx : bool_decide ("xbox" ∈ module_globals) = false)
    by (vm_compute; reflexivity).
  unfold XboxController.start, XboxController.start_in, load_global.
  rewrite Hx. destruct c as [st bt tr j].
  unfold mbind, py_bind, try_except_IOError, os, os_try, Popen.
  cbn -[bool_decide].
  destruct (bool_decide ("xboxdrv" ∈ procs w)); cbn; [|done].
  destruct (can_spawn w "killall"); cbn; [done|].
  by destruct j.
Qed.

(** A fresh controller on a host where no driver runs and none ever
    answers: [start] raises, the controller is as constructed, and
    [get_state] then reports the quiescent snapshot. *)
Lemma start_driver_never_attaches (fuel : nat) :
  XboxController.start fuel (XboxController.__init__, idle_world)
  = (Raise (NameError "xbox"), (XboxController.__init__, idle_world)) ∧
  (XboxController.get_state (XboxController.__init__, idle_world)).1
  = Return quiescent_snapshot.
Proof.
  split; [|by rewrite get_state_fresh].
  assert (Hx : bool_decide ("xbox" ∈ module_globals) = false)
    by (vm_compute; reflexivity).
  unfold XboxController.start, XboxController.start_in, load_global.
  rewrite Hx. reflexivity.
Qed.

(** What the handler of [start] would do if the name resolved: with [xbox]
    bound, a construction that fails with an IOError is printed, the
    client reference stays cleared, [start] returns True, and [get_state]
    reports the snapshot of the untouched primitives. *)
Lemma start_in_swallows_IOError
    (globals : list string) (fuel : nat) (c : XboxController.t)
    (w : World) (msg : string) :
  "xbox" ∈ globals → "xboxdrv" ∉ procs w → XboxController.joy c = None →
  (Joystick.__init__ fuel 30 w).1 = Raise (IOError msg) →
  XboxController.start_in globals fuel (c, w)
  = (Return true, (c, print msg (Joystick.__init__ fuel 30 w).2)) ∧
  (XboxController.get_state
     (XboxController.start_in globals fuel (c, w)).2).1
  = Return (XboxController.state_dict c).
Proof.
  intros Hx Hprocs Hjoy Hinit.
  assert (Hstart : XboxController.start_in globals fuel (c, w)
            = (Return true, (c, print msg (Joystick.__init__ fuel 30 w).2))).
  { unfold XboxController.start_in, load_global.
    rewrite (bool_decide_eq_true_2 _ Hx).
    unfold mbind, py_bind, try_except_IOError, os, os_try.
    cbn -[bool_decide Joystick.__init__].
    rewrite (bool_decide_eq_false_2 _ Hprocs).
    cbn -[Joystick.__init__].
    destruct (Joystick.__init__ fuel 30 w) as [r w1]. cbn in Hinit.
    subst r. destruct c as [st bt tr j]. cbn in Hjoy. by subst j. }
  split; [exact Hstart|]. rewrite Hstart.
  destruct (get_state_no_client c (print msg (Joystick.__init__ fuel 30 w).2) Hjoy)
    as [s Hs].
  cbn [snd]. pose proof Hs as Hs'.
  unfold XboxController.get_state, mbind, py_bind in Hs' |- *.
  rewrite (update_no_client c _ Hjoy) in Hs' |- *.
  reflexivity.
Qed.

Example start_in_when_driver_never_attaches :
  let r := XboxController.start_in ("xbox" :: module_globals) 10
             (XboxController.__init__, idle_world) in
  r.1 = Return true ∧ XboxController.joy r.2.1 = None ∧
  printed r.2.2
  = ["Unable to detect Xbox controller/receiver - Run python as sudo"] ∧
  kills r.2.2 = 1%nat.
Proof. vm_compute. done. Qed.

(** *** GamePadController *)

(** The dict display yields one item per key, in order. *)
Lemma eval_items_keys l (g g' : gmap string pyval) items :
  GamePadController.eval_items l g = (Return items, g') → items.*1 = l.*1.
Proof.
  revert g items. induction l as [|[key [obj attr]] l IH]; intros g items.
  - intros Heq. unfold GamePadController.eval_items, mret, py_ret in Heq.
    by simplify_eq.
  - cbn [GamePadController.eval_items]. unfold mbind, py_bind, mret, py_ret.
    destruct (GamePadController.getattr_of obj attr g) as [[v|e|] g1];
      [|discriminate..].
    destruct (GamePadController.eval_items l g1) as [[rest|e|] g2] eqn:Hrest;
      cbn; [|discriminate..].
    intros Heq. simplify_eq. cbn. f_equal. by eapply IH.
Qed.

(** The keys of the poller's snapshot, on every instance for which
    [get_state] returns. *)
Lemma gamepad_get_state_keys (g : gmap string pyval) (s : gmap string pyval) :
  (GamePadController.get_state g).1 = Return s →
  dom s = list_to_set snapshot_keys.
Proof.
  unfold GamePadController.get_state, GamePadController.with_self_lock,
    with_lock, mbind, py_bind, mret, py_ret.
  destruct (GamePadController.getattr "lock" g) as [[v|e|] g1];
    [|discriminate..].
  destruct (GamePadController.eval_items _ g1) as [[items|e|] g2] eqn:Hitems;
    cbn -[list_to_map]; [|discriminate..].
  intros Heq. simplify_eq.
  rewrite dom_list_to_map_L, (eval_items_keys _ _ _ _ Hitems). f_equal.
Qed.

(** C3.  Constructing a GamePadController fails, with either value of
    either argument: [__init__] binds no input attribute, so the first
    assignment of [set_zero_state], to
    [self.middle_led_ring_button.pressed], raises AttributeError, and the
    caller never gets an instance to call [get_state] on. *)
Theorem GamePadController_new_raises (print_events print_dongle_status : bool) :
  GamePadController.new print_events print_dongle_status
  = Raise (AttributeError "middle_led_ring_button").
Proof. destruct print_events, print_dongle_status; vm_compute; reflexivity. Qed.

Lemma is_Return_returned {A} (dflt : A) (o : outcome A) :
  is_Return o = true → o = Return (returned dflt o).
Proof. by destruct o. Qed.

(** On an instance whose input attributes are bound, [set_zero_state]
    followed by [get_state] reports every field of the schema at its zero
    or false default. *)
Lemma wired_gamepad_zero_state :
  match ((GamePadController.set_zero_state
            ≫= λ _, GamePadController.get_state) wired_gamepad).1 with
  | Return s => forallb (λ key, reads_zero (s !! key)) snapshot_keys
  | _ => false
  end = true.
Proof. vm_compute. reflexivity. Qed.

(** C2, as stated, fails: the snapshot of a fresh XboxController has 21
    keys, not 20. *)
Lemma snapshot_has_21_keys :
  ∃ s, (XboxController.get_state (XboxController.__init__, idle_world)).1
       = Return s ∧ size (dom s) ≠ 20%nat.
Proof.
  exists quiescent_snapshot. split; [by rewrite get_state_fresh|].
  rewrite <- state_dict_fresh.
  rewrite (xbox_get_state_keys XboxController.__init__ idle_world);
    [|by rewrite get_state_fresh, state_dict_fresh].
  rewrite snapshot_keys_size. discriminate.
Qed.

(** C2, amended.  Whenever the two [get_state] methods return, each
    snapshot has exactly the 21 keys of the schema, and the two key sets
    are the same. *)
Theorem snapshot_schema_parity
    (c : XboxController.t) (w : World) (g sx sg : gmap string pyval) :
  (XboxController.get_state (c, w)).1 = Return sx →
  (GamePadController.get_state g).1 = Return sg →
  dom sx = list_to_set snapshot_keys ∧ dom sg = list_to_set snapshot_keys ∧
  size (dom sx) = 21%nat ∧ size (dom sg) = 21%nat ∧ dom sx = dom sg.
Proof.
  intros Hx Hg.
  pose proof (xbox_get_state_keys c w sx Hx) as Hkx.
  pose proof (gamepad_get_state_keys g sg Hg) as Hkg.
  rewrite Hkx, Hkg, snapshot_keys_size. done.
Qed.

(** C2, amended, at a concrete input: a fresh XboxController and a poller
    instance whose input attributes are bound. *)
Lemma snapshot_schema_parity_witness :
  let sx := returned ∅
    (XboxController.get_state (XboxController.__init__, idle_world)).1 in
  let sg := returned ∅ (GamePadController.get_state wired_gamepad).1 in
  dom sx = list_to_set snapshot_keys ∧ dom sg = list_to_set snapshot_keys ∧
  size (dom sx) = 21%nat ∧ size (dom sg) = 21%nat ∧ dom sx = dom sg.
Proof.
  intros sx sg.
  apply (snapshot_schema_parity XboxController.__init__ idle_world
           wired_gamepad sx sg);
    apply is_Return_returned; vm_compute; reflexivity.
Defined.

(** *** Arm *)

(** [home] hands the instance to the base class as the receiver. *)
Lemma home_passes_self {T Res} (PrismaticJoint_home : pycall (Arm.params T) → Res)
    (self : Arm.params T) (end_pos to_positive_stop measuring : pyval) :
  Arm.home PrismaticJoint_home self end_pos to_positive_stop measuring
  = PrismaticJoint_home
      (mkcall [Instance_ self]
              [("end_pos", Value end_pos);
               ("to_positive_stop", Value to_positive_stop);
               ("measuring", Value measuring)]).
Proof. reflexivity. Qed.

(** C4.  What [set_velocity] passes on: the flag selects the base method,
    but the call hands it eight positional arguments that start with
    [v_m]; the instance is not among them.  Bound to the base method's
    parameter list, [v_m] lands in the receiver slot and every other
    argument one parameter to the left of its own; the last parameter
    takes its default. *)
Theorem set_velocity_shifts_arguments {T Res}
    (PrismaticJoint_set_safe_velocity PrismaticJoint_set_velocity
       : pycall (Arm.params T) → Res)
    (self : Arm.params T)
    (v_m a_m stiffness contact_thresh_pos_N contact_thresh_neg_N
     req_calibration contact_thresh_pos contact_thresh_neg : pyval) :
  let passed : list (pyarg (Arm.params T)) :=
    [Value v_m; Value a_m; Value stiffness; Value contact_thresh_pos_N;
     Value contact_thresh_neg_N; Value req_calibration;
     Value contact_thresh_pos; Value contact_thresh_neg] in
  (Arm.set_velocity PrismaticJoint_set_safe_velocity PrismaticJoint_set_velocity
     self v_m a_m stiffness contact_thresh_pos_N contact_thresh_neg_N
     req_calibration contact_thresh_pos contact_thresh_neg
   = (if eq_one (Arm.safe_set_velocit self)
      then PrismaticJoint_set_safe_velocity
      else PrismaticJoint_set_velocity) (mkcall passed [])) ∧
  (Instance_ self ∉ passed) ∧
  bind_positional velocity_parameters passed
  = Some [("self", Value v_m); ("v_m", Value a_m); ("a_m", Value stiffness);
          ("stiffness", Value contact_thresh_pos_N);
          ("contact_thresh_pos_N", Value contact_thresh_neg_N);
          ("contact_thresh_neg_N", Value req_calibration);
          ("req_calibration", Value contact_thresh_pos);
          ("contact_thresh_pos", Value contact_thresh_neg);
          ("contact_thresh_neg", Value VNone)].
Proof.
  intros passed. split; [|split].
  - unfold Arm.set_velocity. by destruct (eq_one _).
  - unfold passed. rewrite !not_elem_of_cons. repeat split; try discriminate.
    apply not_elem_of_nil.
  - reflexivity.
Qed.

(** [arm.set_velocity(0.1)] with the safe mode configured: the
    safety-limited command is called with receiver 0.1 and [v_m = None]. *)
Example set_velocity_default_call :
  let self := Arm.mkparams 0.0167%float 10%float 3.875%float (VInt 1) in
  Arm.set_velocity (λ call, (true, bind_positional velocity_parameters (positional call)))
                   (λ call, (false, bind_positional velocity_parameters (positional call)))
                   self (VFloat 0.1) VNone VNone VNone VNone (VBool true)
                   VNone VNone
  = (true,
     Some [("self", Value (VFloat 0.1)); ("v_m", Value VNone);
           ("a_m", Value VNone); ("stiffness", Value VNone);
           ("contact_thresh_pos_N", Value VNone);
           ("contact_thresh_neg_N", Value (VBool true));
           ("req_calibration", Value VNone);
           ("contact_thresh_pos", Value VNone);
           ("contact_thresh_neg", Value VNone)]).
Proof. reflexivity. Qed.

(** C5, as stated, fails on floats: with all three parameters 1.0, the
    position 29.0 does not survive the round trip. *)
Lemma round_trip_fails_at_29 :
  round_trip_eq (Arm.mkparams 1 1 1 (VInt 0))%float 29%float = Return false.
Proof. vm_compute. reflexivity. Qed.

(** The same with the arm's own numbers (chain pitch 0.0167 m, 10 teeth,
    gear ratio 3.875): 3 cm comes back changed, 10 cm unchanged. *)
Example round_trip_at_3cm :
  round_trip_eq (Arm.mkparams 0.0167 10 3.875 (VInt 0))%float 0.03%float
    = Return false ∧
  round_trip_eq (Arm.mkparams 0.0167 10 3.875 (VInt 0))%float 0.1%float
    = Return true.
Proof. vm_compute. done. Qed.

(** An intermediate quotient beyond the range of a double is lost. *)
Example round_trip_overflow :
  round_trip_eq (Arm.mkparams 0.1 1 1 (VInt 0))%float 1e308%float
    = Return false.
Proof. vm_compute. reflexivity. Qed.

Lemma coefficient_exact (cp teeth gr : R) (flag : pyval) :
  (0 < cp)%R → (0 < teeth)%R → (0 < gr)%R →
  Arm.coefficient (Arm.mkparams cp teeth gr flag)
    = Return (cp * teeth / gr / (PI * 2))%R ∧
  (0 < cp * teeth / gr / (PI * 2))%R.
Proof.
  intros Hcp Hteeth Hgr. pose proof PI_RGT_0 as Hpi.
  assert (Hq : (0 < cp * teeth / gr)%R).
  { apply Rdiv_lt_0_compat; [by apply Rmult_lt_0_compat|done]. }
  assert (H2pi : (0 < PI * 2)%R) by lra.
  split; [|by apply Rdiv_lt_0_compat].
  unfold Arm.coefficient. cbn.
  destruct (Req_dec_T gr 0) as [->|_]; [lra|]. cbn.
  destruct (Req_dec_T (PI * 2) 0) as [Heq|_]; [lra|]. reflexivity.
Qed.

(** C5, amended.  Over the real numbers the two conversions are exact
    inverses: for positive parameters and every position [x], the angle
    exists and converts back to [x]. *)
Theorem round_trip_exact (cp teeth gr x : R) (flag : pyval) :
  (0 < cp)%R → (0 < teeth)%R → (0 < gr)%R →
  ∃ ang : R,
    Arm.translate_m_to_motor_rad (Arm.mkparams cp teeth gr flag) x = Return ang ∧
    Arm.motor_rad_to_translate_m (Arm.mkparams cp teeth gr flag) ang = Return x.
Proof.
  intros Hcp Hteeth Hgr.
  destruct (coefficient_exact cp teeth gr flag Hcp Hteeth Hgr) as [Hc Hpos].
  set (c := (cp * teeth / gr / (PI * 2))%R) in *.
  exists (x / c)%R.
  unfold Arm.translate_m_to_motor_rad, Arm.motor_rad_to_translate_m.
  rewrite Hc. cbn.
  destruct (Req_dec_T c 0) as [Heq|Hne]; [lra|].
  split; [reflexivity|]. f_equal. field. exact Hne.
Qed.

(** C5, amended, at a concrete input: all parameters 1, position 29. *)
Lemma round_trip_exact_witness :
  ∃ ang : R,
    Arm.translate_m_to_motor_rad (Arm.mkparams 1%R 1%R 1%R (VInt 0)) 29%R
      = Return ang ∧
    Arm.motor_rad_to_translate_m (Arm.mkparams 1%R 1%R 1%R (VInt 0)) ang
      = Return 29%R.
Proof.
  apply (round_trip_exact 1 1 1 29 (VInt 0)); apply Rlt_0_1.
Defined.
